(** * form-inputs-react: the input-state reducer hook [useInput] and the
      [useState] component it replaces

    Sources embedded here:
    - [src/code/01-starting-project/src/hooks/use-input.js]
      ([INITIAL_INPUT_STATE], [inputStateReducer], [useInput] and its three
      handlers);
    - [src/unnamed/part_000]: the [SimpleInput] component written with two
      [useState] cells and an inferred validity flag.

    JavaScript is dynamically typed: a reducer action carries any value, and
    the reducer copies [action.value] into the state without looking at it.
    The embedding keeps that: state fields and action payloads are JS values
    ([JS.jsval]), and that the hook only ever stores a string and a boolean
    is a theorem ([UseInput.well_formed]), not a typing assumption. *)

From Stdlib Require Import List String Ascii Bool NArith Lia.
Import ListNotations.

(** ** The fragment of JavaScript the sources use *)

Module JS.

(** A JS string is a sequence of UTF-16 code units, numbers below 65536;
    nothing below depends on the bound. *)
Definition jsstring := list N.

(** ASCII source literals such as ["VALUE_CHANGED"]. *)
Definition lit (s : string) : jsstring :=
  map N_of_ascii (list_ascii_of_string s).

Definition jsstring_eq_dec : forall a b : jsstring, {a = b} + {a <> b} :=
  list_eq_dec N.eq_dec.

(** The values that occur: [undefined] (also what reading an absent property
    gives), booleans, strings. *)
Inductive jsval :=
| JUndefined
| JBool (b : bool)
| JString (s : jsstring).

Definition jsval_eq_dec (a b : jsval) : {a = b} + {a <> b}.
Proof.
  decide equality.
  - apply Bool.bool_dec.
  - apply jsstring_eq_dec.
Defined.

(** [a === b]; a [switch] compares its cases with it. *)
Definition strict_eq (a b : jsval) : bool :=
  if jsval_eq_dec a b then true else false.

(** [a !== b] *)
Definition strict_neq (a b : jsval) : bool := negb (strict_eq a b).

(** ToBoolean: [undefined], [false] and the empty string are falsy. *)
Definition to_boolean (v : jsval) : bool :=
  match v with
  | JUndefined => false
  | JBool b => b
  | JString [] => false
  | JString (_ :: _) => true
  end.

(** [!a] *)
Definition js_not (a : jsval) : jsval := JBool (negb (to_boolean a)).

(** [a && b]: the left operand when it is falsy, else the right one. *)
Definition js_and (a b : jsval) : jsval :=
  if to_boolean a then b else a.

(** Evaluation either returns a value or throws. *)
Inductive completion (A : Type) :=
| Return (a : A)
| Throw.
Arguments Return {A} a.
Arguments Throw {A}.

Definition bind {A B} (c : completion A) (k : A -> completion B)
  : completion B :=
  match c with
  | Return a => k a
  | Throw => Throw
  end.

(** Code units that [String.prototype.trim] strips: ECMAScript's WhiteSpace
    (TAB, VT, FF, ZWNBSP and the space separators) and LineTerminator
    (LF, CR, LS, PS). *)
Definition isWhiteSpace (c : N) : bool :=
  ((c =? 9) || (c =? 11) || (c =? 12) || (c =? 32) || (c =? 160)
   || (c =? 5760) || ((8192 <=? c) && (c <=? 8202)) || (c =? 8239)
   || (c =? 8287) || (c =? 12288) || (c =? 65279))%N.

Definition isLineTerminator (c : N) : bool :=
  ((c =? 10) || (c =? 13) || (c =? 8232) || (c =? 8233))%N.

Definition isTrimmed (c : N) : bool := isWhiteSpace c || isLineTerminator c.

Fixpoint trimStart (s : jsstring) : jsstring :=
  match s with
  | [] => []
  | c :: s' => if isTrimmed c then trimStart s' else s
  end.

Definition trimEnd (s : jsstring) : jsstring := rev (trimStart (rev s)).

Definition trimString (s : jsstring) : jsstring := trimEnd (trimStart s).

(** The method call [v.trim()]: [undefined] has no properties and a boolean
    has no [trim] method, so both throw a TypeError. *)
Definition trim (v : jsval) : completion jsval :=
  match v with
  | JString s => Return (JString (trimString s))
  | JUndefined | JBool _ => Throw
  end.

(** ToString, as a template literal applies it to [${v}]. *)
Definition to_string (v : jsval) : jsstring :=
  match v with
  | JUndefined => lit "undefined"
  | JBool true => lit "true"
  | JBool false => lit "false"
  | JString s => s
  end.

End JS.

Import JS.

Notation "x <- c ;; k" := (bind c (fun x => k))
  (at level 61, c at next level, right associativity).

(** ** What an event handler of a component does *)

(** A handler calls state setters, [event.preventDefault()] and
    [console.log]. The cells are what React holds for the component; the
    effects are recorded in the order they happen. A handler that throws is
    [Throw]: what React does with the updates queued before the throw is not
    modelled. *)
Module React.

Inductive Effect :=
| PreventDefault
| ConsoleLog (message : jsstring).

Record World (S : Type) := { cells : S; effects : list Effect }.
Arguments cells {S} w.
Arguments effects {S} w.

Definition Handler (S : Type) := World S -> completion (World S).

(** A call of a setter: [set] replaces one cell. *)
Definition setState {S} (set : S -> S) : Handler S :=
  fun w => Return {| cells := set (cells w); effects := effects w |}.

Definition emit {S} (e : Effect) : Handler S :=
  fun w => Return {| cells := cells w; effects := effects w ++ [e] |}.

Definition skip {S} : Handler S := fun w => Return w.

(** [h1; h2] *)
Definition seq {S} (h1 h2 : Handler S) : Handler S :=
  fun w => w' <- h1 w ;; h2 w'.

(** Evaluate an expression that may throw, then go on with its value. *)
Definition eval {S A} (c : completion A) (k : A -> Handler S) : Handler S :=
  fun w => a <- c ;; k a w.

(** Events delivered one after the other; React renders again between two
    of them, so each handler sees the cells the previous one left. *)
Fixpoint fireAll {S E} (fire : World S -> E -> completion (World S))
  (events : list E) (w : World S) : completion (World S) :=
  match events with
  | [] => Return w
  | e :: later => w' <- fire w e ;; fireAll fire later w'
  end.

(** The parts of the rendered form that depend on the state: the class of
    the wrapping [div], the [value] of the [input], whether the error
    paragraph is there, and whether the submit button is disabled. *)
Record View :=
  { className : jsstring;
    inputValue : jsval;
    errorShown : bool;
    submitDisabled : bool }.

End React.

Notation "h1 ;;; h2" := (React.seq h1 h2)
  (at level 62, right associativity).

(** ** Objects passed around *)

(** A reducer action [{ type, value }]. [switch (action.type)] and
    [action.value] read the two properties; an action written without
    [value], as [{ type: "RESET_INPUT" }], reads as [undefined] there. *)
Module Action.
Record t := { type : jsval; value : jsval }.
End Action.

(** A DOM event of the text input: [event.target.value] is the field's
    content, always a string. *)
Module Event.
Record target_t := { value : jsstring }.
Record t := { target : target_t }.
End Event.

(** ** [use-input.js] *)

Module UseInput.

(** The state object. Every object literal the reducer returns lists both
    properties, so a state always has the two fields; what they hold is
    whatever JS value was put there. *)
Record InputState := { enteredValue : jsval; isTouched : jsval }.

(** use-input.js, lines 9-12 *)
Definition INITIAL_INPUT_STATE : InputState :=
  {| enteredValue := JString (lit ""); isTouched := JBool false |}.

(** use-input.js, lines 28-38. [case "RESET_INPUT":] has no body and falls
    through to [default:]. *)
Definition inputStateReducer (state : InputState) (action : Action.t)
  : InputState :=
  if strict_eq (Action.type action) (JString (lit "VALUE_CHANGED")) then
    {| enteredValue := Action.value action; isTouched := isTouched state |}
  else if strict_eq (Action.type action) (JString (lit "INPUT_BLUR")) then
    {| enteredValue := enteredValue state; isTouched := Action.value action |}
  else if strict_eq (Action.type action) (JString (lit "RESET_INPUT")) then
    INITIAL_INPUT_STATE
  else
    INITIAL_INPUT_STATE.

(** [useReducer(inputStateReducer, INITIAL_INPUT_STATE)], lines 52-55: React
    holds the state, [dispatchInput(action)] replaces it by the reducer's
    result. A handler is therefore a function from the held state to the
    next one. *)
Definition dispatchInput (action : Action.t) (inputState : InputState)
  : InputState :=
  inputStateReducer inputState action.

(** lines 61-68 *)
Definition valueChangeHandler (event : Event.t) : InputState -> InputState :=
  dispatchInput
    {| Action.type := JString (lit "VALUE_CHANGED");
       Action.value := JString (Event.value (Event.target event)) |}.

(** lines 70-80 *)
Definition inputBlurHandler (event : Event.t) : InputState -> InputState :=
  dispatchInput
    {| Action.type := JString (lit "INPUT_BLUR");
       Action.value := JBool true |}.

(** lines 82-86 *)
Definition reset : InputState -> InputState :=
  dispatchInput
    {| Action.type := JString (lit "RESET_INPUT");
       Action.value := JUndefined |}.

(** The data fields of the object [useInput] returns (lines 88-95); its other
    three fields are the handlers above. *)
Record Outputs := { value : jsval; isValid : jsval; hasError : jsval }.

(** [useInput(validateValue)] evaluated while React holds [inputState]
    (lines 57-59 and 88-91). The caller's [validateValue] is arbitrary JS and
    may throw. *)
Definition useInput (validateValue : jsval -> completion jsval)
  (inputState : InputState) : completion Outputs :=
  valueIsValid <- validateValue (enteredValue inputState) ;;
  let hasError := js_and (js_not valueIsValid) (isTouched inputState) in
  Return {| value := enteredValue inputState;
            isValid := valueIsValid;
            hasError := hasError |}.

(** The three operations the hook hands to its caller, as data, to speak
    about sequences of them. *)
Inductive Operation :=
| OnChange (event : Event.t)
| OnBlur (event : Event.t)
| Reset.

Definition perform (inputState : InputState) (op : Operation) : InputState :=
  match op with
  | OnChange event => valueChangeHandler event inputState
  | OnBlur event => inputBlurHandler event inputState
  | Reset => reset inputState
  end.

Definition run (ops : list Operation) (inputState : InputState) : InputState :=
  fold_left perform ops inputState.

(** The action object each operation hands to [dispatchInput]
    (lines 67, 79 and 85). *)
Definition dispatched (op : Operation) : Action.t :=
  match op with
  | OnChange event =>
      {| Action.type := JString (lit "VALUE_CHANGED");
         Action.value := JString (Event.value (Event.target event)) |}
  | OnBlur _ =>
      {| Action.type := JString (lit "INPUT_BLUR");
         Action.value := JBool true |}
  | Reset =>
      {| Action.type := JString (lit "RESET_INPUT");
         Action.value := JUndefined |}
  end.

(** States the hook can be in: reached from the initial one by operations. *)
Definition reachable (inputState : InputState) : Prop :=
  exists ops, inputState = run ops INITIAL_INPUT_STATE.

(** Both fields hold a value of the type the data model gives them:
    a string and a boolean. *)
Definition well_formed (inputState : InputState) : Prop :=
  (exists s, enteredValue inputState = JString s) /\
  (exists b, isTouched inputState = JBool b).

(** What the data model says the fields are after a history of operations,
    read off the history from its latest operation backwards. *)
Fixpoint lastChangeBackwards (latestFirst : list Operation) : jsstring :=
  match latestFirst with
  | [] => lit ""
  | OnChange event :: _ => Event.value (Event.target event)
  | OnBlur _ :: earlier => lastChangeBackwards earlier
  | Reset :: _ => lit ""
  end.

Fixpoint blurredBackwards (latestFirst : list Operation) : bool :=
  match latestFirst with
  | [] => false
  | OnChange _ :: earlier => blurredBackwards earlier
  | OnBlur _ :: _ => true
  | Reset :: _ => false
  end.

(** The string of the last change since the most recent reset, [""] if
    there is none. *)
Definition lastChange (ops : list Operation) : jsstring :=
  lastChangeBackwards (rev ops).

(** Whether a blur happened since the most recent reset. *)
Definition blurredSinceReset (ops : list Operation) : bool :=
  blurredBackwards (rev ops).

End UseInput.

(** ** [src/unnamed/part_000]: [SimpleInput] with two [useState] cells *)

Module SimpleInput.

(** part_000 line 8, [enteredName.trim() !== ""], as a function of the value
    it tests: the predicate non-empty-after-trim, also the one a caller hands
    to [useInput] as [validateValue]. *)
Definition nonEmptyAfterTrim (value : jsval) : completion jsval :=
  trimmed <- trim value ;;
  Return (JBool (strict_neq trimmed (JString (lit "")))).

(** The two cells, lines 4-5. *)
Record State := { enteredName : jsval; enteredNameTouched : jsval }.

(** [useState("")], [useState(false)] *)
Definition initialState : State :=
  {| enteredName := JString (lit ""); enteredNameTouched := JBool false |}.

Definition setEnteredName (v : jsval) (st : State) : State :=
  {| enteredName := v; enteredNameTouched := enteredNameTouched st |}.

Definition setEnteredNameTouched (v : jsval) (st : State) : State :=
  {| enteredName := enteredName st; enteredNameTouched := v |}.

(** lines 15-17 *)
Definition nameInputChangeHandler (event : Event.t) : State -> State :=
  setEnteredName (JString (Event.value (Event.target event))).

(** lines 19-21 *)
Definition nameInputBlurHandler (event : Event.t) : State -> State :=
  setEnteredNameTouched (JBool true).

(** The inferred states of one render, lines 7-13. *)
Record Inferred :=
  { enteredNameIsValid : jsval;
    nameInputIsInvalid : jsval;
    formIsValid : jsval }.

Definition render (st : State) : completion Inferred :=
  enteredNameIsValid <- nonEmptyAfterTrim (enteredName st) ;;
  let nameInputIsInvalid :=
    js_and (js_not enteredNameIsValid) (enteredNameTouched st) in
  let formIsValid := enteredNameIsValid in
  Return {| enteredNameIsValid := enteredNameIsValid;
            nameInputIsInvalid := nameInputIsInvalid;
            formIsValid := formIsValid |}.

(** Change and blur events of the input, the events both versions handle. *)
Inductive InputEvent :=
| Change (event : Event.t)
| Blur (event : Event.t).

Definition handle (st : State) (e : InputEvent) : State :=
  match e with
  | Change event => nameInputChangeHandler event st
  | Blur event => nameInputBlurHandler event st
  end.

Definition deliver (events : list InputEvent) (st : State) : State :=
  fold_left handle events st.

(** The same event delivered to the hook's handlers. *)
Definition toOperation (e : InputEvent) : UseInput.Operation :=
  match e with
  | Change event => UseInput.OnChange event
  | Blur event => UseInput.OnBlur event
  end.

(** lines 23-32. [enteredName] and [enteredNameIsValid] are constants of the
    render that created the handler. *)
Definition submitHandler (enteredName enteredNameIsValid : jsval)
  : React.Handler State :=
  React.emit React.PreventDefault ;;;
  React.setState (setEnteredNameTouched (JBool true)) ;;;
  (if to_boolean enteredNameIsValid then
     React.emit
       (React.ConsoleLog
          (lit "Submitting form! Name: " ++ to_string enteredName)) ;;;
     React.setState (setEnteredName (JString (lit ""))) ;;;
     React.setState (setEnteredNameTouched (JBool false))
   else React.skip).

(** lines 34-59: [nameInputClasses] and the JSX. *)
Definition view (st : State) : completion React.View :=
  inferred <- render st ;;
  let nameInputClasses :=
    if to_boolean (nameInputIsInvalid inferred)
    then lit "form-control invalid" else lit "form-control" in
  Return {| React.className := nameInputClasses;
            React.inputValue := enteredName st;
            React.errorShown := to_boolean (nameInputIsInvalid inferred);
            React.submitDisabled :=
              to_boolean (js_not (formIsValid inferred)) |}.

(** The events of the form: those of the input, and submit. *)
Inductive FormEvent :=
| Input (e : InputEvent)
| Submit.

(** One event: the handlers are those of the render of the current cells,
    which has to return for them to exist. *)
Definition fire (w : React.World State) (e : FormEvent)
  : completion (React.World State) :=
  inferred <- render (React.cells w) ;;
  match e with
  | Input e => React.setState (fun st => handle st e) w
  | Submit =>
      submitHandler (enteredName (React.cells w))
        (enteredNameIsValid inferred) w
  end.

(** The component when it is mounted. *)
Definition mounted : React.World State :=
  {| React.cells := initialState; React.effects := [] |}.

(** The world in which the cells hold the string [s] and the boolean [b]. *)
Definition holding (s : jsstring) (b : bool) (effects : list React.Effect)
  : React.World State :=
  {| React.cells := {| enteredName := JString s;
                       enteredNameTouched := JBool b |};
     React.effects := effects |}.

(** The hook and the component hold the same value and the same touched
    flag. *)
Definition related (hook : UseInput.InputState) (component : State) : Prop :=
  (UseInput.enteredValue hook, UseInput.isTouched hook) =
  (enteredName component, enteredNameTouched component).

End SimpleInput.

(** ** [src/code/01-starting-project/src/components/SimpleInput.js]:
       validity kept in a cell of its own *)

Module SimpleInputTouched.

(** The three cells, lines 4-11. *)
Record State :=
  { enteredName : jsval;
    enteredNameIsValid : jsval;
    enteredNameTouched : jsval }.

(** [useState("")], [useState(false)], [useState(false)] *)
Definition initialState : State :=
  {| enteredName := JString (lit "");
     enteredNameIsValid := JBool false;
     enteredNameTouched := JBool false |}.

Definition setEnteredName (v : jsval) (st : State) : State :=
  {| enteredName := v;
     enteredNameIsValid := enteredNameIsValid st;
     enteredNameTouched := enteredNameTouched st |}.

Definition setEnteredNameIsValid (v : jsval) (st : State) : State :=
  {| enteredName := enteredName st;
     enteredNameIsValid := v;
     enteredNameTouched := enteredNameTouched st |}.

Definition setEnteredNameTouched (v : jsval) (st : State) : State :=
  {| enteredName := enteredName st;
     enteredNameIsValid := enteredNameIsValid st;
     enteredNameTouched := v |}.

(** lines 13-15 *)
Definition nameInputChangeHandler (event : Event.t) : React.Handler State :=
  React.setState (setEnteredName (JString (Event.value (Event.target event)))).

(** lines 17-23. [enteredName] is the constant of the render that created
    the handler. *)
Definition nameInputBlurHandler (enteredName : jsval) (event : Event.t)
  : React.Handler State :=
  React.setState (setEnteredNameTouched (JBool true)) ;;;
  React.eval (trim enteredName) (fun trimmed =>
    if strict_eq trimmed (JString (lit "")) then
      React.setState (setEnteredNameIsValid (JBool false))
    else React.skip).

(** lines 25-36 *)
Definition submitHandler (enteredName : jsval) : React.Handler State :=
  React.emit React.PreventDefault ;;;
  React.setState (setEnteredNameTouched (JBool true)) ;;;
  React.eval (trim enteredName) (fun trimmed =>
    if strict_eq trimmed (JString (lit "")) then
      React.setState (setEnteredNameIsValid (JBool false))
    else
      React.emit
        (React.ConsoleLog
           (lit "Submitting form! Name: " ++ to_string enteredName)) ;;;
      React.setState (setEnteredNameIsValid (JBool true)) ;;;
      React.setState (setEnteredName (JString (lit "")))).

(** line 38 *)
Definition nameInputIsInvalid (st : State) : jsval :=
  js_and (js_not (enteredNameIsValid st)) (enteredNameTouched st).

(** lines 40-63: [nameInputClasses] and the JSX; the button is never
    disabled. *)
Definition view (st : State) : React.View :=
  let nameInputClasses :=
    if to_boolean (nameInputIsInvalid st)
    then lit "form-control invalid" else lit "form-control" in
  {| React.className := nameInputClasses;
     React.inputValue := enteredName st;
     React.errorShown := to_boolean (nameInputIsInvalid st);
     React.submitDisabled := false |}.

Inductive FormEvent :=
| Change (event : Event.t)
| Blur (event : Event.t)
| Submit.

(** One event, handled by the handlers of the render of the current cells. *)
Definition fire (w : React.World State) (e : FormEvent)
  : completion (React.World State) :=
  match e with
  | Change event => nameInputChangeHandler event w
  | Blur event => nameInputBlurHandler (enteredName (React.cells w)) event w
  | Submit => submitHandler (enteredName (React.cells w)) w
  end.

Definition mounted : React.World State :=
  {| React.cells := initialState; React.effects := [] |}.

(** The world in which the cells hold the string [s] and the booleans
    [valid] and [touched]. *)
Definition holding (s : jsstring) (valid touched : bool)
  (effects : list React.Effect) : React.World State :=
  {| React.cells := {| enteredName := JString s;
                       enteredNameIsValid := JBool valid;
                       enteredNameTouched := JBool touched |};
     React.effects := effects |}.

(** An event of the input, as this version receives it. *)
Definition ofInputEvent (e : SimpleInput.InputEvent) : FormEvent :=
  match e with
  | SimpleInput.Change event => Change event
  | SimpleInput.Blur event => Blur event
  end.

Definition isBlur (e : FormEvent) : bool :=
  match e with
  | Blur _ => true
  | Change _ | Submit => false
  end.

Definition isSubmit (e : FormEvent) : bool :=
  match e with
  | Submit => true
  | Change _ | Blur _ => false
  end.

End SimpleInputTouched.

(** ** [src/unnamed/part_001]: validation on submit only *)

Module SimpleInputOnSubmit.

(** The two cells, lines 4-6. *)
Record State := { enteredName : jsval; enteredNameIsValid : jsval }.

(** [useState("")], [useState(true)] *)
Definition initialState : State :=
  {| enteredName := JString (lit ""); enteredNameIsValid := JBool true |}.

Definition setEnteredName (v : jsval) (st : State) : State :=
  {| enteredName := v; enteredNameIsValid := enteredNameIsValid st |}.

Definition setEnteredNameIsValid (v : jsval) (st : State) : State :=
  {| enteredName := enteredName st; enteredNameIsValid := v |}.

(** lines 8-10 *)
Definition nameInputChangeHandler (event : Event.t) : React.Handler State :=
  React.setState (setEnteredName (JString (Event.value (Event.target event)))).

(** lines 12-22 *)
Definition submitHandler (enteredName : jsval) : React.Handler State :=
  React.emit React.PreventDefault ;;;
  React.eval (trim enteredName) (fun trimmed =>
    if strict_eq trimmed (JString (lit "")) then
      React.setState (setEnteredNameIsValid (JBool false))
    else
      React.emit
        (React.ConsoleLog
           (lit "Submitting form! Name: " ++ to_string enteredName)) ;;;
      React.setState (setEnteredNameIsValid (JBool true)) ;;;
      React.setState (setEnteredName (JString (lit "")))).

(** lines 24-46: [nameInputClasses] and the JSX; the paragraph is guarded by
    [!enteredNameIsValid]. *)
Definition view (st : State) : React.View :=
  let nameInputClasses :=
    if to_boolean (enteredNameIsValid st)
    then lit "form-control" else lit "form-control invalid" in
  {| React.className := nameInputClasses;
     React.inputValue := enteredName st;
     React.errorShown := to_boolean (js_not (enteredNameIsValid st));
     React.submitDisabled := false |}.

Inductive FormEvent :=
| Change (event : Event.t)
| Submit.

Definition fire (w : React.World State) (e : FormEvent)
  : completion (React.World State) :=
  match e with
  | Change event => nameInputChangeHandler event w
  | Submit => submitHandler (enteredName (React.cells w)) w
  end.

Definition mounted : React.World State :=
  {| React.cells := initialState; React.effects := [] |}.

(** The world in which the cells hold the string [s] and the boolean
    [valid]. *)
Definition holding (s : jsstring) (valid : bool)
  (effects : list React.Effect) : React.World State :=
  {| React.cells := {| enteredName := JString s;
                       enteredNameIsValid := JBool valid |};
     React.effects := effects |}.

End SimpleInputOnSubmit.

(** Every line written to the console is the submit message of some name
    that is not blank: it has a code unit that [trim] keeps. *)
Definition logsOnlyNonBlankNames (effects : list React.Effect) : Prop :=
  forall message,
    In (React.ConsoleLog message) effects ->
    exists name,
      message = lit "Submitting form! Name: " ++ name /\
      forallb isTrimmed name = false.

Import UseInput.

(** The event of the user editing the field to [s]. *)
Definition inputEvent (s : jsstring) : Event.t :=
  {| Event.target := {| Event.value := s |} |}.

(** ** The definitions on small inputs *)

Example trim_padded_Sam :
  trim (JString (lit "  Sam  ")) = Return (JString (lit "Sam")).
Proof. reflexivity. Qed.

Example trim_undefined_throws : trim JUndefined = Throw.
Proof. reflexivity. Qed.

Example reducer_change_on_touched :
  inputStateReducer
    {| enteredValue := JString (lit "Sa"); isTouched := JBool true |}
    {| Action.type := JString (lit "VALUE_CHANGED");
       Action.value := JString (lit "Sam") |}
  = {| enteredValue := JString (lit "Sam"); isTouched := JBool true |}.
Proof. reflexivity. Qed.

Example run_change_blur_reset_change :
  run [OnChange (inputEvent (lit "Sam")); OnBlur (inputEvent (lit "Sam"));
       Reset; OnChange (inputEvent (lit "Al"))] INITIAL_INPUT_STATE
  = {| enteredValue := JString (lit "Al"); isTouched := JBool false |}.
Proof. reflexivity. Qed.

Example useInput_blurred_blank :
  useInput SimpleInput.nonEmptyAfterTrim
    {| enteredValue := JString (lit " "); isTouched := JBool true |}
  = Return {| value := JString (lit " ");
              isValid := JBool false;
              hasError := JBool true |}.
Proof. reflexivity. Qed.

(** ** Facts about the JavaScript fragment *)

Lemma inputEvent_surjective (event : Event.t) :
  event = inputEvent (Event.value (Event.target event)).
Proof. destruct event as [[s]]. reflexivity. Qed.

Lemma strict_eq_true (a b : jsval) : strict_eq a b = true <-> a = b.
Proof.
  unfold strict_eq. destruct (jsval_eq_dec a b); split; congruence.
Qed.

Lemma strict_eq_false (a b : jsval) : strict_eq a b = false <-> a <> b.
Proof.
  unfold strict_eq. destruct (jsval_eq_dec a b); split; congruence.
Qed.

(** [!a && b] is [true] exactly when [a] is falsy and [b] is [true]. *)
Lemma not_and_true (a b : jsval) :
  js_and (js_not a) b = JBool true <-> to_boolean a = false /\ b = JBool true.
Proof.
  unfold js_and, js_not. cbn. destruct (to_boolean a); cbn.
  - split; [discriminate | intros [H _]; discriminate].
  - split; [intros ->; auto | intros [_ ->]; reflexivity].
Qed.

Lemma not_and_bool (a b : bool) :
  js_and (js_not (JBool a)) (JBool b) = JBool (negb a && b).
Proof. destruct a, b; reflexivity. Qed.

(** ** The reducer, branch by branch *)

Lemma reducer_VALUE_CHANGED (state : InputState) (action : Action.t) :
  Action.type action = JString (lit "VALUE_CHANGED") ->
  inputStateReducer state action =
  {| enteredValue := Action.value action; isTouched := isTouched state |}.
Proof. unfold inputStateReducer. intros ->. reflexivity. Qed.

Lemma reducer_INPUT_BLUR (state : InputState) (action : Action.t) :
  Action.type action = JString (lit "INPUT_BLUR") ->
  inputStateReducer state action =
  {| enteredValue := enteredValue state; isTouched := Action.value action |}.
Proof. unfold inputStateReducer. intros ->. reflexivity. Qed.

Lemma reducer_default (state : InputState) (action : Action.t) :
  Action.type action <> JString (lit "VALUE_CHANGED") ->
  Action.type action <> JString (lit "INPUT_BLUR") ->
  inputStateReducer state action = INITIAL_INPUT_STATE.
Proof.
  intros Hchanged Hblur. unfold inputStateReducer.
  apply strict_eq_false in Hchanged. apply strict_eq_false in Hblur.
  rewrite Hchanged, Hblur.
  destruct (strict_eq _ (JString (lit "RESET_INPUT"))); reflexivity.
Qed.

Lemma valueChangeHandler_eq (event : Event.t) (inputState : InputState) :
  valueChangeHandler event inputState =
  {| enteredValue := JString (Event.value (Event.target event));
     isTouched := isTouched inputState |}.
Proof. apply reducer_VALUE_CHANGED. reflexivity. Qed.

Lemma inputBlurHandler_eq (event : Event.t) (inputState : InputState) :
  inputBlurHandler event inputState =
  {| enteredValue := enteredValue inputState; isTouched := JBool true |}.
Proof. apply reducer_INPUT_BLUR. reflexivity. Qed.

Lemma reset_eq (inputState : InputState) :
  reset inputState = INITIAL_INPUT_STATE.
Proof. apply reducer_default; discriminate. Qed.

Create Rewrite HintDb handlers.
#[local] Hint Rewrite valueChangeHandler_eq inputBlurHandler_eq reset_eq
  : handlers.

Ltac handlers := autorewrite with handlers; cbn [enteredValue isTouched].

(** ** The derived outputs *)

(** On a state whose touched flag is a boolean, and with a predicate that
    answers with a boolean, [hasError] is the boolean [!isValid && touched]. *)
Lemma useInput_bool (validateValue : jsval -> completion jsval)
  (inputState : InputState) (valid touched : bool) :
  validateValue (enteredValue inputState) = Return (JBool valid) ->
  isTouched inputState = JBool touched ->
  useInput validateValue inputState =
  Return {| value := enteredValue inputState;
            isValid := JBool valid;
            hasError := JBool (negb valid && touched) |}.
Proof.
  intros Hvalid Htouched. unfold useInput. rewrite Hvalid, Htouched. cbn.
  rewrite not_and_bool. reflexivity.
Qed.

(** C1: for every input state and every validity predicate that answers
    [valid] on the current value, the hook returns outputs in which [isValid]
    is that answer and [hasError] is [true] if and only if the touched flag is
    [true] and the answer is [false]. *)
Theorem hasError_iff_touched_and_invalid
  (validateValue : jsval -> completion jsval) (inputState : InputState)
  (valid : bool) :
  validateValue (enteredValue inputState) = Return (JBool valid) ->
  exists out,
    useInput validateValue inputState = Return out /\
    isValid out = JBool valid /\
    (hasError out = JBool true <->
     isTouched inputState = JBool true /\ valid = false).
Proof.
  intros Hvalid. unfold useInput. rewrite Hvalid. cbn.
  eexists. split; [reflexivity|]. cbn. split; [reflexivity|].
  rewrite not_and_true. cbn. tauto.
Qed.

Lemma hasError_iff_touched_and_invalid_witness :
  SimpleInput.nonEmptyAfterTrim
    (enteredValue (inputBlurHandler (inputEvent (lit "")) INITIAL_INPUT_STATE))
  = Return (JBool false) /\
  exists out,
    useInput SimpleInput.nonEmptyAfterTrim
      (inputBlurHandler (inputEvent (lit "")) INITIAL_INPUT_STATE)
    = Return out /\
    isValid out = JBool false /\
    (hasError out = JBool true <->
     isTouched (inputBlurHandler (inputEvent (lit "")) INITIAL_INPUT_STATE)
     = JBool true /\ false = false).
Proof.
  split; [reflexivity|].
  apply (hasError_iff_touched_and_invalid SimpleInput.nonEmptyAfterTrim
           (inputBlurHandler (inputEvent (lit "")) INITIAL_INPUT_STATE) false).
  reflexivity.
Defined.

(** ** The three operations *)

(** C2: for every string [s] and every prior state, after [onChange(s)] the
    hook's [value] output is exactly [s] (the hook returns as soon as the
    caller's predicate answers on [s]). *)
Theorem onChange_then_value (validateValue : jsval -> completion jsval)
  (s : jsstring) (inputState : InputState) (answer : jsval) :
  validateValue (JString s) = Return answer ->
  exists out,
    useInput validateValue (valueChangeHandler (inputEvent s) inputState)
    = Return out /\
    value out = JString s.
Proof.
  intros Hanswer. unfold useInput. handlers. cbn. rewrite Hanswer. cbn.
  eexists. split; reflexivity.
Qed.

Lemma onChange_then_value_witness :
  SimpleInput.nonEmptyAfterTrim (JString (lit "Sam")) = Return (JBool true) /\
  exists out,
    useInput SimpleInput.nonEmptyAfterTrim
      (valueChangeHandler (inputEvent (lit "Sam"))
         {| enteredValue := JString (lit "x"); isTouched := JBool true |})
    = Return out /\
    value out = JString (lit "Sam").
Proof.
  split; [reflexivity|].
  apply (onChange_then_value SimpleInput.nonEmptyAfterTrim (lit "Sam")
           {| enteredValue := JString (lit "x"); isTouched := JBool true |}
           (JBool true)).
  reflexivity.
Defined.

(** C3: for every string [s] and every prior state, [onChange(s)] yields the
    state whose value field is [s] and whose touched field is the prior one.
    The handler is a total function: there is no failing case. *)
Theorem onChange_replaces_value_keeps_touched (s : jsstring)
  (inputState : InputState) :
  exists next,
    valueChangeHandler (inputEvent s) inputState = next /\
    enteredValue next = JString s /\
    isTouched next = isTouched inputState.
Proof.
  eexists. split; [reflexivity|]. handlers. split; reflexivity.
Qed.

(** C4: for every prior state, [onBlur()] yields the state whose touched field
    is [true] and whose value field is the prior one. The handler is a total
    function: there is no failing case. *)
Theorem onBlur_sets_touched_keeps_value (event : Event.t)
  (inputState : InputState) :
  exists next,
    inputBlurHandler event inputState = next /\
    isTouched next = JBool true /\
    enteredValue next = enteredValue inputState.
Proof.
  eexists. split; [reflexivity|]. handlers. split; reflexivity.
Qed.

(** C5: for every prior state, [reset()] yields the initial state
    [{value: "", touched: false}]; so reset after any sequence of operations
    from any state is the same as reset alone, and reset is idempotent. *)
Theorem reset_restores_initial (inputState other : InputState)
  (ops : list Operation) :
  reset inputState =
    {| enteredValue := JString (lit ""); isTouched := JBool false |} /\
  reset inputState = INITIAL_INPUT_STATE /\
  reset (run ops inputState) = reset inputState /\
  reset (run ops inputState) = reset other /\
  reset (reset inputState) = reset inputState.
Proof.
  rewrite !reset_eq. repeat split; reflexivity.
Qed.

(** ** Histories of operations *)

Lemma run_snoc (ops : list Operation) (op : Operation)
  (inputState : InputState) :
  run (ops ++ [op]) inputState = perform (run ops inputState) op.
Proof. unfold run. rewrite fold_left_app. reflexivity. Qed.

Lemma perform_dispatches (inputState : InputState) (op : Operation) :
  perform inputState op = inputStateReducer inputState (dispatched op).
Proof. destruct op; reflexivity. Qed.

(** The state after a history, in closed form. *)
Lemma run_from_initial (ops : list Operation) :
  run ops INITIAL_INPUT_STATE =
  {| enteredValue := JString (lastChange ops);
     isTouched := JBool (blurredSinceReset ops) |}.
Proof.
  unfold lastChange, blurredSinceReset.
  induction ops as [|op ops IH] using rev_ind; [reflexivity|].
  rewrite run_snoc, IH, rev_unit.
  destruct op; cbn [perform]; handlers; reflexivity.
Qed.

Lemma perform_well_formed (inputState : InputState) (op : Operation) :
  well_formed inputState -> well_formed (perform inputState op).
Proof.
  intros [[s Hs] [b Hb]].
  destruct op; cbn [perform]; handlers; split; cbn; eauto.
Qed.

Lemma reachable_well_formed (inputState : InputState) :
  reachable inputState -> well_formed inputState.
Proof.
  intros [ops ->]. rewrite run_from_initial. split; cbn; eauto.
Qed.

(** C6: in every state reached from the initial one by a history of
    operations, the value field is the string of the last change since the
    most recent reset ([""] when there is none) and the touched field tells
    whether a blur happened since then; along any further operation a touched
    field that is [true] stays [true] unless the operation is reset, and the
    touched field changes only from [false] to [true], or to [false] by
    reset. *)
Theorem value_last_change_touched_monotone (ops : list Operation)
  (op : Operation) :
  let before := run ops INITIAL_INPUT_STATE in
  let after := perform before op in
  enteredValue before = JString (lastChange ops) /\
  isTouched before = JBool (blurredSinceReset ops) /\
  (isTouched before = JBool true -> op <> Reset ->
   isTouched after = JBool true) /\
  (isTouched after <> isTouched before ->
   (isTouched before = JBool false /\ isTouched after = JBool true) \/
   (op = Reset /\ isTouched after = JBool false)).
Proof.
  cbv zeta. rewrite run_from_initial. cbn [enteredValue isTouched].
  repeat split.
  - intros Htouched Hop. destruct op; cbn [perform]; handlers;
      [assumption | reflexivity | contradiction].
  - destruct op; cbn [perform]; handlers; intros Hchange.
    + contradiction.
    + left. split; [|reflexivity].
      destruct (blurredSinceReset ops); [contradiction | reflexivity].
    + right. split; reflexivity.
Qed.

Lemma value_last_change_touched_monotone_witness :
  isTouched
    (perform
       (run [OnChange (inputEvent (lit "Sam")); OnBlur (inputEvent (lit "Sam"))]
          INITIAL_INPUT_STATE)
       (OnChange (inputEvent (lit "Samuel"))))
  = JBool true.
Proof.
  apply (proj1 (proj2 (proj2
           (value_last_change_touched_monotone
              [OnChange (inputEvent (lit "Sam"));
               OnBlur (inputEvent (lit "Sam"))]
              (OnChange (inputEvent (lit "Samuel"))))))).
  - reflexivity.
  - discriminate.
Defined.

(** ** The predicate non-empty-after-trim *)

Lemma trimStart_nil (s : jsstring) :
  trimStart s = [] <-> forallb isTrimmed s = true.
Proof.
  induction s as [|c s IH]; cbn; [tauto|].
  destruct (isTrimmed c); cbn; [exact IH|].
  split; discriminate.
Qed.

Lemma forallb_trimStart (s : jsstring) :
  forallb isTrimmed (trimStart s) = forallb isTrimmed s.
Proof.
  induction s as [|c s IH]; cbn; [reflexivity|].
  destruct (isTrimmed c) eqn:Hc; cbn; [exact IH|].
  rewrite Hc. reflexivity.
Qed.

Lemma forallb_rev (p : N -> bool) (s : jsstring) :
  forallb p (rev s) = forallb p s.
Proof.
  induction s as [|c s IH]; cbn; [reflexivity|].
  rewrite forallb_app, IH. cbn. rewrite andb_true_r. apply andb_comm.
Qed.

Lemma trimString_nil (s : jsstring) :
  trimString s = [] <-> forallb isTrimmed s = true.
Proof.
  unfold trimString, trimEnd.
  rewrite <- forallb_trimStart, <- (forallb_rev _ (trimStart s)).
  rewrite <- trimStart_nil.
  split; [intros H | intros ->; reflexivity].
  apply (f_equal (@rev N)) in H. rewrite rev_involutive in H. exact H.
Qed.

(** On a string the predicate returns, and says whether some code unit is
    neither white space nor a line terminator. *)
Lemma nonEmptyAfterTrim_string (s : jsstring) :
  SimpleInput.nonEmptyAfterTrim (JString s) =
  Return (JBool (negb (forallb isTrimmed s))).
Proof.
  unfold SimpleInput.nonEmptyAfterTrim. cbn. do 2 f_equal.
  unfold strict_neq. f_equal.
  destruct (forallb isTrimmed s) eqn:Hs.
  - apply strict_eq_true. f_equal. apply trimString_nil. exact Hs.
  - apply strict_eq_false. intros [= H]. apply trimString_nil in H. congruence.
Qed.

(** C7: with the predicate non-empty-after-trim, whatever the prior state,
    after [onChange("  ")] the hook's [isValid] output is [false] and after
    [onChange("Sam")] it is [true]. *)
Theorem isValid_blank_and_Sam (inputState : InputState) :
  (exists out,
     useInput SimpleInput.nonEmptyAfterTrim
       (valueChangeHandler (inputEvent (lit "  ")) inputState) = Return out /\
     isValid out = JBool false) /\
  (exists out,
     useInput SimpleInput.nonEmptyAfterTrim
       (valueChangeHandler (inputEvent (lit "Sam")) inputState) = Return out /\
     isValid out = JBool true).
Proof.
  handlers. split; eexists; (split; [reflexivity|]); reflexivity.
Qed.

(** ** Totality and well-formed states *)

(** C8: each operation is a total function on states: for every state whose
    fields are a string and a boolean, and every action an operation
    dispatches, the reducer returns a state, again with a string in the value
    field and a boolean in the touched field; no case throws. *)
Theorem operations_total (inputState : InputState) (op : Operation) :
  well_formed inputState ->
  exists next,
    inputStateReducer inputState (dispatched op) = next /\
    perform inputState op = next /\
    well_formed next.
Proof.
  intros Hwf. exists (perform inputState op).
  split; [symmetry; apply perform_dispatches|].
  split; [reflexivity|]. apply perform_well_formed. exact Hwf.
Qed.

Lemma operations_total_witness :
  well_formed INITIAL_INPUT_STATE /\
  exists next,
    inputStateReducer INITIAL_INPUT_STATE
      (dispatched (OnChange (inputEvent (lit "Sam")))) = next /\
    perform INITIAL_INPUT_STATE (OnChange (inputEvent (lit "Sam"))) = next /\
    well_formed next.
Proof.
  assert (Hwf : well_formed INITIAL_INPUT_STATE)
    by (split; eexists; reflexivity).
  split; [exact Hwf|].
  exact (operations_total INITIAL_INPUT_STATE
           (OnChange (inputEvent (lit "Sam"))) Hwf).
Defined.

(** ** The default branch *)

(** C10: for every state, an action whose type is neither ["VALUE_CHANGED"]
    nor ["INPUT_BLUR"] (a string the reducer does not know, or no string at
    all) is handled like reset: the reducer returns the initial state
    [{enteredValue: "", isTouched: false}], whatever the state held. *)
Theorem unrecognized_action_resets (state : InputState) (action : Action.t) :
  Action.type action <> JString (lit "VALUE_CHANGED") ->
  Action.type action <> JString (lit "INPUT_BLUR") ->
  inputStateReducer state action =
    {| enteredValue := JString (lit ""); isTouched := JBool false |} /\
  inputStateReducer state action = reset state.
Proof.
  intros Hchanged Hblur. rewrite reset_eq.
  split; apply reducer_default; assumption.
Qed.

Lemma unrecognized_action_resets_witness :
  inputStateReducer
    {| enteredValue := JString (lit "Sam"); isTouched := JBool true |}
    {| Action.type := JString (lit "SUBMIT"); Action.value := JBool true |}
  = {| enteredValue := JString (lit ""); isTouched := JBool false |} /\
  inputStateReducer
    {| enteredValue := JString (lit "Sam"); isTouched := JBool true |}
    {| Action.type := JString (lit "SUBMIT"); Action.value := JBool true |}
  = reset {| enteredValue := JString (lit "Sam"); isTouched := JBool true |}.
Proof.
  apply unrecognized_action_resets; discriminate.
Defined.

(** ** The hook against the [useState] component *)

Section Refinement.

Import SimpleInput.

Lemma related_step (hook : InputState) (component : State) (e : InputEvent) :
  related hook component ->
  related (perform hook (toOperation e)) (handle component e).
Proof.
  unfold related. intros [= Hvalue Htouched].
  destruct e; cbn [toOperation perform handle]; handlers.
  - unfold nameInputChangeHandler, setEnteredName. cbn. congruence.
  - unfold nameInputBlurHandler, setEnteredNameTouched. cbn. congruence.
Qed.

Lemma related_run (events : list InputEvent) :
  forall hook component,
    related hook component ->
    related (run (map toOperation events) hook) (deliver events component).
Proof.
  induction events as [|e events IH]; intros hook component Hrel.
  - exact Hrel.
  - cbn. apply IH, related_step, Hrel.
Qed.

(** C9: started from their initial states and given the same sequence of
    change and blur events, the reducer's [(enteredValue, isTouched)] pair
    equals the [useState] component's [(enteredName, enteredNameTouched)]
    pair, and under the predicate non-empty-after-trim both versions return
    their derived flags, with the same validity and the same error flag. *)
Theorem reducer_refines_useState (events : list InputEvent) :
  let hook := run (map toOperation events) INITIAL_INPUT_STATE in
  let component := deliver events initialState in
  (enteredValue hook, isTouched hook) =
    (enteredName component, enteredNameTouched component) /\
  exists out inferred,
    useInput nonEmptyAfterTrim hook = Return out /\
    render component = Return inferred /\
    isValid out = enteredNameIsValid inferred /\
    hasError out = nameInputIsInvalid inferred.
Proof.
  cbv zeta.
  assert (Hrel : related (run (map toOperation events) INITIAL_INPUT_STATE)
                   (deliver events initialState))
    by (apply related_run; reflexivity).
  split; [exact Hrel|].
  injection Hrel as Hvalue Htouched.
  unfold useInput, render. rewrite <- Hvalue, <- Htouched.
  rewrite run_from_initial. cbn [enteredValue isTouched].
  rewrite nonEmptyAfterTrim_string. cbn [bind].
  do 2 eexists. repeat split.
Qed.

End Refinement.

(** ** More about the hook *)

(** X1: the hook throws exactly when the caller's predicate throws on the
    current value; nothing else in it can fail. *)
Theorem useInput_throws_iff (validateValue : jsval -> completion jsval)
  (inputState : InputState) :
  useInput validateValue inputState = Throw <->
  validateValue (enteredValue inputState) = Throw.
Proof.
  unfold useInput. destruct (validateValue (enteredValue inputState)); cbn.
  - split; discriminate.
  - tauto.
Qed.

(** X2: after any history of operations the hook with the predicate
    non-empty-after-trim returns, and its outputs are: the last change since
    the most recent reset; whether that string has a code unit that is not
    white space; and, as error flag, whether it has none and a blur happened
    since the most recent reset. *)
Theorem outputs_after_history (ops : list Operation) :
  useInput SimpleInput.nonEmptyAfterTrim (run ops INITIAL_INPUT_STATE) =
  Return {| value := JString (lastChange ops);
            isValid := JBool (existsb (fun c => negb (isTrimmed c))
                                (lastChange ops));
            hasError := JBool (forallb isTrimmed (lastChange ops)
                               && blurredSinceReset ops) |}.
Proof.
  rewrite run_from_initial.
  erewrite useInput_bool;
    [| cbn [enteredValue]; apply nonEmptyAfterTrim_string | reflexivity].
  cbn [enteredValue]. rewrite negb_involutive. do 3 f_equal.
  induction (lastChange ops) as [|c s IH]; cbn; [reflexivity|].
  rewrite negb_andb, IH. reflexivity.
Qed.

(** X3: whatever the state and the predicate, the outputs never report an
    error on a value they report as valid: a truthy [hasError] comes with a
    falsy [isValid]. *)
Theorem hasError_excludes_isValid (validateValue : jsval -> completion jsval)
  (inputState : InputState) (out : Outputs) :
  useInput validateValue inputState = Return out ->
  to_boolean (hasError out) = true ->
  to_boolean (isValid out) = false.
Proof.
  unfold useInput.
  destruct (validateValue (enteredValue inputState)) as [answer|]; cbn;
    [|discriminate].
  intros [= <-]. cbn. unfold js_and, js_not. cbn.
  destruct (to_boolean answer); cbn; [discriminate | reflexivity].
Qed.

Lemma hasError_excludes_isValid_witness :
  to_boolean
    (isValid
       {| value := JString (lit " ");
          isValid := JBool false;
          hasError := JBool true |}) = false.
Proof.
  apply (hasError_excludes_isValid SimpleInput.nonEmptyAfterTrim
           {| enteredValue := JString (lit " "); isTouched := JBool true |});
    reflexivity.
Defined.

(** X4: while the touched flag is [false] (at mount, after a reset, before
    the first blur) the error flag is [false], whatever the value and
    whatever the predicate answers. *)
Theorem untouched_shows_no_error (validateValue : jsval -> completion jsval)
  (inputState : InputState) (answer : jsval) :
  isTouched inputState = JBool false ->
  validateValue (enteredValue inputState) = Return answer ->
  exists out,
    useInput validateValue inputState = Return out /\
    hasError out = JBool false.
Proof.
  intros Htouched Hanswer. unfold useInput. rewrite Hanswer, Htouched. cbn.
  eexists. split; [reflexivity|]. cbn. unfold js_and, js_not. cbn.
  destruct (to_boolean answer); reflexivity.
Qed.

Lemma untouched_shows_no_error_witness :
  exists out,
    useInput SimpleInput.nonEmptyAfterTrim
      (reset {| enteredValue := JString (lit "Sam"); isTouched := JBool true |})
    = Return out /\
    hasError out = JBool false.
Proof.
  apply (untouched_shows_no_error SimpleInput.nonEmptyAfterTrim
           (reset {| enteredValue := JString (lit "Sam");
                     isTouched := JBool true |})
           (JBool false));
    reflexivity.
Defined.

(** X5: change and blur act on different fields: they commute; of two
    changes the later one wins; a second blur changes nothing. *)
Theorem change_blur_compose (e1 e2 : Event.t) (inputState : InputState) :
  valueChangeHandler e1 (inputBlurHandler e2 inputState) =
    inputBlurHandler e2 (valueChangeHandler e1 inputState) /\
  valueChangeHandler e2 (valueChangeHandler e1 inputState) =
    valueChangeHandler e2 inputState /\
  inputBlurHandler e2 (inputBlurHandler e1 inputState) =
    inputBlurHandler e1 inputState.
Proof. handlers. repeat split. Qed.

(** X6: a reset cuts the history: the state after a history that contains a
    reset is the state the operations after that reset give from the initial
    state, whatever came before and whatever the starting state was. *)
Theorem reset_cuts_history (earlier later : list Operation)
  (inputState : InputState) :
  run (earlier ++ Reset :: later) inputState = run later INITIAL_INPUT_STATE.
Proof.
  unfold run. rewrite fold_left_app. cbn [fold_left perform].
  rewrite reset_eq. reflexivity.
Qed.

(** X7: the reducer stores the payload of an action unexamined. On a state
    that holds a string and a boolean, its result holds a string and a
    boolean exactly when a ["VALUE_CHANGED"] action carries a string and an
    ["INPUT_BLUR"] action carries a boolean. *)
Theorem reducer_well_formed_iff (state : InputState) (action : Action.t) :
  well_formed state ->
  (well_formed (inputStateReducer state action) <->
   (Action.type action = JString (lit "VALUE_CHANGED") ->
    exists s, Action.value action = JString s) /\
   (Action.type action = JString (lit "INPUT_BLUR") ->
    exists b, Action.value action = JBool b)).
Proof.
  intros [Hvalue Htouched].
  destruct (jsval_eq_dec (Action.type action) (JString (lit "VALUE_CHANGED")))
    as [Hc|Hc].
  - rewrite (reducer_VALUE_CHANGED _ _ Hc). unfold well_formed. cbn.
    rewrite Hc. split.
    + intros [H _]. split; [auto | discriminate].
    + intros [H _]. auto.
  - destruct (jsval_eq_dec (Action.type action) (JString (lit "INPUT_BLUR")))
      as [Hb|Hb].
    + rewrite (reducer_INPUT_BLUR _ _ Hb). unfold well_formed. cbn.
      rewrite Hb. split.
      * intros [_ H]. split; [discriminate | auto].
      * intros [_ H]. auto.
    + rewrite (reducer_default _ _ Hc Hb). split.
      * intros _. split; intros; contradiction.
      * intros _. split; eexists; reflexivity.
Qed.

Lemma reducer_well_formed_iff_witness :
  well_formed
    (inputStateReducer INITIAL_INPUT_STATE
       {| Action.type := JString (lit "INPUT_BLUR");
          Action.value := JBool false |}) <->
  (JString (lit "INPUT_BLUR") = JString (lit "VALUE_CHANGED") ->
   exists s, JBool false = JString s) /\
  (JString (lit "INPUT_BLUR") = JString (lit "INPUT_BLUR") ->
   exists b, JBool false = JBool b).
Proof.
  apply (reducer_well_formed_iff INITIAL_INPUT_STATE
           {| Action.type := JString (lit "INPUT_BLUR");
              Action.value := JBool false |}).
  split; eexists; reflexivity.
Defined.

(** ** The predicate non-empty-after-trim, continued *)

(** X8: the predicate throws exactly on a value that is not a string; on a
    string it answers [true] exactly when some code unit of the string is
    neither white space nor a line terminator. *)
Theorem nonEmptyAfterTrim_meaning (v : jsval) :
  (SimpleInput.nonEmptyAfterTrim v = Throw <-> forall s, v <> JString s) /\
  (forall s, v = JString s ->
     (SimpleInput.nonEmptyAfterTrim v = Return (JBool true) <->
      exists c, In c s /\ isTrimmed c = false) /\
     (SimpleInput.nonEmptyAfterTrim v = Return (JBool false) <->
      forall c, In c s -> isTrimmed c = true)).
Proof.
  split.
  - destruct v as [|b|s].
    + cbn. split; [discriminate | reflexivity].
    + cbn. split; [discriminate | reflexivity].
    + rewrite nonEmptyAfterTrim_string.
      split; [discriminate | intros H; destruct (H s); reflexivity].
  - intros s ->. rewrite nonEmptyAfterTrim_string.
    destruct (forallb isTrimmed s) eqn:Hs; cbn.
    + rewrite forallb_forall in Hs. split; split.
      * discriminate.
      * intros (c & Hin & Hc). rewrite (Hs c Hin) in Hc. discriminate.
      * intros _. exact Hs.
      * reflexivity.
    + split; split.
      * intros _. clear -Hs. induction s as [|c s IH]; [discriminate|].
        cbn in Hs. destruct (isTrimmed c) eqn:Hc.
        -- destruct (IH Hs) as (c' & Hin & Hc'). exists c'. cbn. auto.
        -- exists c. cbn. auto.
      * reflexivity.
      * discriminate.
      * intros H. apply forallb_forall in H. congruence.
Qed.

(** X9: white space around a string does not change the predicate's answer:
    a value padded on both sides with white space or line terminators is
    valid exactly when the unpadded one is. *)
Theorem nonEmptyAfterTrim_ignores_padding (before s after : jsstring) :
  forallb isTrimmed before = true ->
  forallb isTrimmed after = true ->
  SimpleInput.nonEmptyAfterTrim (JString (before ++ s ++ after)) =
  SimpleInput.nonEmptyAfterTrim (JString s).
Proof.
  intros Hbefore Hafter. rewrite !nonEmptyAfterTrim_string.
  rewrite !forallb_app, Hbefore, Hafter, andb_true_r. reflexivity.
Qed.

Lemma nonEmptyAfterTrim_ignores_padding_witness :
  SimpleInput.nonEmptyAfterTrim
    (JString (lit "  " ++ lit "Sam" ++ [9; 10]%N)) =
  SimpleInput.nonEmptyAfterTrim (JString (lit "Sam")).
Proof.
  apply (nonEmptyAfterTrim_ignores_padding (lit "  ") (lit "Sam") [9; 10]%N);
    reflexivity.
Defined.

(** ** Handlers, step by step *)

Ltac handler_steps :=
  unfold React.seq, React.eval, React.emit, React.setState, React.skip;
  cbn [bind React.cells React.effects to_boolean to_string trim negb].

Lemma logsOnlyNonBlankNames_nil : logsOnlyNonBlankNames [].
Proof. intros message []. Qed.

Lemma logsOnlyNonBlankNames_app (effects more : list React.Effect) :
  logsOnlyNonBlankNames effects ->
  logsOnlyNonBlankNames more ->
  logsOnlyNonBlankNames (effects ++ more).
Proof.
  intros Heffects Hmore message Hin.
  apply in_app_or in Hin. destruct Hin; auto.
Qed.

Lemma logsOnlyNonBlankNames_submit (name : jsstring) :
  forallb isTrimmed name = false ->
  logsOnlyNonBlankNames
    [React.PreventDefault;
     React.ConsoleLog (lit "Submitting form! Name: " ++ name)].
Proof.
  intros Hname message [Hin|[Hin|[]]]; [discriminate|].
  injection Hin as <-. exists name. split; [reflexivity | exact Hname].
Qed.

Lemma logsOnlyNonBlankNames_preventDefault :
  logsOnlyNonBlankNames [React.PreventDefault].
Proof. intros message [Hin|[]]. discriminate. Qed.

Create HintDb logs.
#[local] Hint Resolve logsOnlyNonBlankNames_nil logsOnlyNonBlankNames_app
  logsOnlyNonBlankNames_submit logsOnlyNonBlankNames_preventDefault : logs.

(** ** [part_000] with its submit handler *)

Section DerivedValidity.

Import SimpleInput.

Lemma derived_fire_submit (s : jsstring) (b : bool)
  (effects : list React.Effect) :
  fire (holding s b effects) Submit =
  Return
    (if forallb isTrimmed s
     then holding s true (effects ++ [React.PreventDefault])
     else holding (lit "") false
            (effects ++
             [React.PreventDefault;
              React.ConsoleLog (lit "Submitting form! Name: " ++ s)])).
Proof.
  unfold fire, render, holding. cbn [React.cells enteredName].
  rewrite nonEmptyAfterTrim_string. cbn [bind enteredNameIsValid].
  unfold submitHandler. handler_steps.
  destruct (forallb isTrimmed s); cbn [negb]; handler_steps;
    [reflexivity|].
  rewrite <- app_assoc. reflexivity.
Qed.

Lemma derived_fire_input (s : jsstring) (b : bool)
  (effects : list React.Effect) (e : InputEvent) :
  fire (holding s b effects) (Input e) =
  Return
    (match e with
     | Change event => holding (Event.value (Event.target event)) b effects
     | Blur _ => holding s true effects
     end).
Proof.
  unfold fire, render, holding. cbn [React.cells enteredName].
  rewrite nonEmptyAfterTrim_string. cbn [bind].
  destruct e; reflexivity.
Qed.

Lemma derived_step (s : jsstring) (b : bool) (effects : list React.Effect)
  (e : FormEvent) :
  logsOnlyNonBlankNames effects ->
  exists s' b' effects',
    fire (holding s b effects) e = Return (holding s' b' effects') /\
    logsOnlyNonBlankNames effects'.
Proof.
  intros Hlogs. destruct e as [e|].
  - rewrite derived_fire_input. destruct e; eauto.
  - rewrite derived_fire_submit.
    destruct (forallb isTrimmed s) eqn:Hs; do 3 eexists;
      (split; [reflexivity | auto with logs]).
Qed.

Lemma derived_histories (events : list FormEvent) :
  forall s b effects,
    logsOnlyNonBlankNames effects ->
    exists s' b' effects',
      React.fireAll fire events (holding s b effects) =
        Return (holding s' b' effects') /\
      logsOnlyNonBlankNames effects'.
Proof.
  induction events as [|e events IH]; intros s b effects Hlogs.
  - cbn. eauto.
  - destruct (derived_step s b effects e Hlogs)
      as (s1 & b1 & effects1 & Hfire & Hlogs1).
    cbn [React.fireAll]. rewrite Hfire. cbn [bind]. apply IH, Hlogs1.
Qed.

Lemma derived_view (s : jsstring) (b : bool) :
  view {| enteredName := JString s; enteredNameTouched := JBool b |} =
  Return
    {| React.className :=
         if forallb isTrimmed s && b
         then lit "form-control invalid" else lit "form-control";
       React.inputValue := JString s;
       React.errorShown := forallb isTrimmed s && b;
       React.submitDisabled := forallb isTrimmed s |}.
Proof.
  unfold view, render. cbn [enteredName enteredNameTouched].
  rewrite nonEmptyAfterTrim_string. cbn [bind].
  cbn [nameInputIsInvalid formIsValid]. rewrite not_and_bool.
  rewrite negb_involutive. cbn [to_boolean js_not]. rewrite negb_involutive.
  reflexivity.
Qed.

End DerivedValidity.

Section DerivedValiditySubmit.

Import SimpleInput.

(** X10: submit in [part_000], from cells holding a string: the default
    action is prevented in both cases. On a blank name nothing is logged, the
    name stays, the touched flag becomes [true], and the next render shows the
    error with the invalid class. On any other name one line with the name is
    logged and the cells go back to their initial values: the next render
    shows an empty field, no error, and the button disabled. *)
Theorem derived_submit (s : jsstring) (b : bool)
  (effects : list React.Effect) :
  exists w' v',
    fire (holding s b effects) Submit = Return w' /\
    view (React.cells w') = Return v' /\
    if forallb isTrimmed s then
      w' = holding s true (effects ++ [React.PreventDefault]) /\
      React.errorShown v' = true /\
      React.className v' = lit "form-control invalid"
    else
      w' = {| React.cells := initialState;
              React.effects :=
                effects ++
                [React.PreventDefault;
                 React.ConsoleLog (lit "Submitting form! Name: " ++ s)] |} /\
      React.inputValue v' = JString (lit "") /\
      React.errorShown v' = false /\
      React.className v' = lit "form-control" /\
      React.submitDisabled v' = true.
Proof.
  rewrite derived_fire_submit.
  destruct (forallb isTrimmed s) eqn:Hs; do 2 eexists;
    (split; [reflexivity|]); cbn [holding React.cells];
    rewrite derived_view; (split; [reflexivity|]).
  - rewrite Hs. repeat split.
  - repeat split.
Qed.

(** X11: no history of change, blur and submit events makes [part_000]
    throw: from the mounted component every history returns, leaves a string
    and a boolean in the cells, so that the next render returns too, and has
    logged only submit lines of names that are not blank. *)
Theorem derived_histories_safe (events : list FormEvent) :
  exists s b effects v,
    React.fireAll fire events mounted = Return (holding s b effects) /\
    view (React.cells (holding s b effects)) = Return v /\
    logsOnlyNonBlankNames effects.
Proof.
  destruct (derived_histories events (lit "") false []
              logsOnlyNonBlankNames_nil)
    as (s & b & effects & Hfire & Hlogs).
  exists s, b, effects. eexists.
  split; [exact Hfire|]. split; [apply derived_view | exact Hlogs].
Qed.

(** X12: what [part_000] renders from cells holding a string and a boolean:
    the field shows the string; the error paragraph is there exactly when the
    string is blank and the touched flag is set, and exactly then the class
    is the invalid one; the button is disabled exactly when the string is
    blank, so whenever the error is shown the button is disabled. *)
Theorem derived_view_consistent (s : jsstring) (b : bool) :
  exists v,
    view {| enteredName := JString s; enteredNameTouched := JBool b |}
    = Return v /\
    React.inputValue v = JString s /\
    React.errorShown v = (forallb isTrimmed s && b) /\
    React.submitDisabled v = forallb isTrimmed s /\
    (React.className v = lit "form-control invalid" <->
     React.errorShown v = true) /\
    (React.className v = lit "form-control" <->
     React.errorShown v = false) /\
    (React.errorShown v = true -> React.submitDisabled v = true).
Proof.
  rewrite derived_view. eexists. split; [reflexivity|].
  cbn [React.inputValue React.errorShown React.submitDisabled
       React.className].
  repeat split; try (destruct (forallb isTrimmed s), b; cbn;
    solve [reflexivity | discriminate]).
Qed.

(** X13: submit in [part_000] is one operation of the hook: when the hook
    and the component hold the same value and touched flag, and the submit
    returns, the hook with the predicate non-empty-after-trim returns too,
    and the component's cells after the submit are the hook's state after
    [reset] if the hook reports the value valid, after a blur otherwise. *)
Theorem submit_matches_hook (hook : InputState) (w w' : React.World State)
  (event : Event.t) :
  related hook (React.cells w) ->
  fire w Submit = Return w' ->
  exists out,
    useInput nonEmptyAfterTrim hook = Return out /\
    related
      (if to_boolean (isValid out) then reset hook
       else inputBlurHandler event hook)
      (React.cells w').
Proof.
  unfold related. intros [= Hvalue Htouched].
  unfold fire, render, useInput. rewrite Hvalue.
  destruct (nonEmptyAfterTrim (enteredName (React.cells w)))
    as [valid|]; cbn [bind]; [|discriminate].
  cbn [enteredNameIsValid]. unfold submitHandler. handler_steps.
  intros Hfire. eexists. split; [reflexivity|]. cbn [isValid]. handlers.
  destruct (to_boolean valid); handler_steps.
  - injection Hfire as <-. reflexivity.
  - injection Hfire as <-. cbn. rewrite Hvalue. reflexivity.
Qed.

Lemma submit_matches_hook_witness :
  exists out,
    useInput nonEmptyAfterTrim
      {| enteredValue := JString (lit "Sam"); isTouched := JBool true |}
    = Return out /\
    related
      (if to_boolean (isValid out)
       then reset {| enteredValue := JString (lit "Sam");
                     isTouched := JBool true |}
       else inputBlurHandler (inputEvent (lit ""))
              {| enteredValue := JString (lit "Sam");
                 isTouched := JBool true |})
      (React.cells
         {| React.cells := initialState;
            React.effects :=
              [React.PreventDefault;
               React.ConsoleLog
                 (lit "Submitting form! Name: " ++ lit "Sam")] |}).
Proof.
  apply (submit_matches_hook
           {| enteredValue := JString (lit "Sam"); isTouched := JBool true |}
           (holding (lit "Sam") true [])); reflexivity.
Defined.

End DerivedValiditySubmit.

Section DerivedValiditySimulation.

Import SimpleInput.



End DerivedValiditySimulation.

(** ** [components/SimpleInput.js]: validity in a cell *)

Lemma trim_is_empty (s : jsstring) :
  strict_eq (JString (trimString s)) (JString (lit "")) =
  forallb isTrimmed s.
Proof.
  destruct (forallb isTrimmed s) eqn:Hs.
  - apply strict_eq_true. f_equal. apply trimString_nil. exact Hs.
  - apply strict_eq_false. intros [= H]. apply trimString_nil in H. congruence.
Qed.

Section ValidityCell.

Import SimpleInputTouched.

Lemma cell_fire (s : jsstring) (valid touched : bool)
  (effects : list React.Effect) (e : FormEvent) :
  fire (holding s valid touched effects) e =
  Return
    (match e with
     | Change event =>
         holding (Event.value (Event.target event)) valid touched effects
     | Blur _ =>
         holding s (if forallb isTrimmed s then false else valid) true effects
     | Submit =>
         if forallb isTrimmed s
         then holding s false true (effects ++ [React.PreventDefault])
         else holding (lit "") true true
                (effects ++
                 [React.PreventDefault;
                  React.ConsoleLog (lit "Submitting form! Name: " ++ s)])
     end).
Proof.
  destruct e; unfold fire, holding; cbn [React.cells enteredName].
  - reflexivity.
  - unfold nameInputBlurHandler. handler_steps. rewrite trim_is_empty.
    destruct (forallb isTrimmed s); reflexivity.
  - unfold submitHandler. handler_steps. rewrite trim_is_empty.
    destruct (forallb isTrimmed s); handler_steps; [reflexivity|].
    rewrite <- app_assoc. reflexivity.
Qed.

Lemma cell_view (s : jsstring) (valid touched : bool) :
  view {| enteredName := JString s;
          enteredNameIsValid := JBool valid;
          enteredNameTouched := JBool touched |} =
  {| React.className :=
       if negb valid && touched
       then lit "form-control invalid" else lit "form-control";
     React.inputValue := JString s;
     React.errorShown := negb valid && touched;
     React.submitDisabled := false |}.
Proof.
  unfold view, nameInputIsInvalid. cbn [enteredNameIsValid enteredNameTouched].
  rewrite not_and_bool. reflexivity.
Qed.

Lemma cell_histories (events : list FormEvent) :
  forall s valid touched effects,
    logsOnlyNonBlankNames effects ->
    exists s' valid' touched' effects',
      React.fireAll fire events (holding s valid touched effects) =
        Return (holding s' valid' touched' effects') /\
      logsOnlyNonBlankNames effects'.
Proof.
  induction events as [|e events IH]; intros s valid touched effects Hlogs.
  - cbn. eauto 6.
  - cbn [React.fireAll]. rewrite cell_fire. cbn [bind].
    destruct e; [apply IH, Hlogs | apply IH, Hlogs |].
    destruct (forallb isTrimmed s) eqn:Hs; apply IH; auto with logs.
Qed.

(** X15: no history of change, blur and submit events makes
    [components/SimpleInput.js] throw: from the mounted component every
    history returns, leaves a string and two booleans in the cells, and has
    logged only submit lines of names that are not blank. *)
Theorem cell_histories_safe (events : list FormEvent) :
  exists s valid touched effects,
    React.fireAll fire events mounted = Return (holding s valid touched effects)
    /\ logsOnlyNonBlankNames effects.
Proof.
  apply (cell_histories events (lit "") false false []).
  apply logsOnlyNonBlankNames_nil.
Qed.

Lemma cell_without_submit (events : list FormEvent) :
  forallb (fun e => negb (isSubmit e)) events = true ->
  forall s touched,
    exists s',
      React.fireAll fire events (holding s false touched []) =
      Return (holding s' false (touched || existsb isBlur events) []).
Proof.
  induction events as [|e events IH]; intros Hno s touched.
  - cbn. rewrite orb_false_r. eauto.
  - cbn [React.fireAll]. rewrite cell_fire. cbn [bind].
    cbn in Hno. apply andb_true_iff in Hno. destruct Hno as [He Hno].
    destruct e; [| |discriminate]; cbn [existsb isBlur].
    + apply IH, Hno.
    + rewrite orb_true_r. replace (if forallb isTrimmed s then false else false)
        with false by (destruct (forallb isTrimmed s); reflexivity).
      destruct (IH Hno s true) as (s' & Hs'). exists s'. exact Hs'.
Qed.

(** X16: in [components/SimpleInput.js] typing never validates: after any
    history of change and blur events without a submit, the validity cell is
    still [false], nothing was logged, and the error is shown exactly when a
    blur occurred, whatever the field holds. *)
Theorem cell_error_follows_blur (events : list FormEvent) :
  forallb (fun e => negb (isSubmit e)) events = true ->
  exists s,
    React.fireAll fire events mounted =
      Return (holding s false (existsb isBlur events) []) /\
    React.errorShown
      (view (React.cells (holding s false (existsb isBlur events) [])))
    = existsb isBlur events.
Proof.
  intros Hno. destruct (cell_without_submit events Hno (lit "") false)
    as (s & Hs).
  exists s. split; [exact Hs|]. cbn [holding React.cells].
  rewrite cell_view. reflexivity.
Qed.

Lemma cell_error_follows_blur_witness :
  exists s,
    React.fireAll fire
      [Change (inputEvent (lit "Sam")); Blur (inputEvent (lit "Sam"))]
      mounted
    = Return (holding s false true []) /\
    React.errorShown (view (React.cells (holding s false true []))) = true.
Proof.
  apply (cell_error_follows_blur
           [Change (inputEvent (lit "Sam")); Blur (inputEvent (lit "Sam"))]).
  reflexivity.
Defined.

End ValidityCell.

Section ValidityCellFacts.

Import SimpleInputTouched.

(** X17: when the validity cell of [components/SimpleInput.js] changes. A
    change event never touches it. It becomes [false] only by a blur or a
    submit while the name is blank, and [true] only by a submit of a name
    that is not blank. *)
Theorem cell_validity_changes (s : jsstring) (valid touched : bool)
  (effects : list React.Effect) (e : FormEvent) (w' : React.World State) :
  fire (holding s valid touched effects) e = Return w' ->
  enteredNameIsValid (React.cells w') <> JBool valid ->
  (forallb isTrimmed s = true /\ (isBlur e || isSubmit e) = true /\
   enteredNameIsValid (React.cells w') = JBool false) \/
  (forallb isTrimmed s = false /\ e = Submit /\
   enteredNameIsValid (React.cells w') = JBool true).
Proof.
  rewrite cell_fire. intros [= <-].
  destruct e; cbn [holding React.cells enteredNameIsValid];
    destruct (forallb isTrimmed s);
    cbn [holding React.cells enteredNameIsValid]; intros Hchanged;
    try contradiction; auto.
Qed.

Lemma cell_validity_changes_witness :
  (forallb isTrimmed (lit "Sam") = true /\ (isBlur Submit || isSubmit Submit) = true /\
   enteredNameIsValid
     (React.cells
        (holding (lit "") true true
           [React.PreventDefault;
            React.ConsoleLog (lit "Submitting form! Name: " ++ lit "Sam")]))
   = JBool false) \/
  (forallb isTrimmed (lit "Sam") = false /\ Submit = Submit /\
   enteredNameIsValid
     (React.cells
        (holding (lit "") true true
           [React.PreventDefault;
            React.ConsoleLog (lit "Submitting form! Name: " ++ lit "Sam")]))
   = JBool true).
Proof.
  apply (cell_validity_changes (lit "Sam") false true [] Submit).
  - reflexivity.
  - discriminate.
Defined.

(** X18: submit in [components/SimpleInput.js], from cells holding a string
    and two booleans: the default action is prevented and the touched flag
    set in both cases. On a blank name nothing is logged, the validity cell
    becomes [false] and the next render shows the error. On any other name
    one line with the name is logged, the name is cleared and the validity
    cell becomes [true]: the next render shows an empty field without error,
    although the field is blank and touched. *)
Theorem cell_submit (s : jsstring) (valid touched : bool)
  (effects : list React.Effect) :
  exists w',
    fire (holding s valid touched effects) Submit = Return w' /\
    if forallb isTrimmed s then
      w' = holding s false true (effects ++ [React.PreventDefault]) /\
      React.errorShown (view (React.cells w')) = true /\
      React.className (view (React.cells w')) = lit "form-control invalid"
    else
      w' = holding (lit "") true true
             (effects ++
              [React.PreventDefault;
               React.ConsoleLog (lit "Submitting form! Name: " ++ s)]) /\
      React.inputValue (view (React.cells w')) = JString (lit "") /\
      React.errorShown (view (React.cells w')) = false /\
      React.className (view (React.cells w')) = lit "form-control".
Proof.
  rewrite cell_fire. eexists. split; [reflexivity|].
  destruct (forallb isTrimmed s); cbn [holding React.cells];
    rewrite cell_view; repeat split.
Qed.

Lemma cell_follows_derived (events : list SimpleInput.InputEvent) :
  forall s touched,
    exists s' touched',
      React.fireAll fire (map ofInputEvent events) (holding s false touched [])
      = Return (holding s' false touched' []) /\
      SimpleInput.deliver events
        {| SimpleInput.enteredName := JString s;
           SimpleInput.enteredNameTouched := JBool touched |}
      = {| SimpleInput.enteredName := JString s';
           SimpleInput.enteredNameTouched := JBool touched' |}.
Proof.
  induction events as [|e events IH]; intros s touched.
  - exists s, touched. split; reflexivity.
  - cbn [map React.fireAll]. rewrite cell_fire. cbn [bind].
    unfold SimpleInput.deliver in *. cbn [fold_left].
    destruct e; cbn [ofInputEvent SimpleInput.handle].
    + apply IH.
    + replace (if forallb isTrimmed s then false else false)
        with false by (destruct (forallb isTrimmed s); reflexivity).
      apply IH.
Qed.

(** X19: [components/SimpleInput.js] against [part_000] on the same change
    and blur events from mount: both hold the same name and touched flag,
    and [part_000] shows the error exactly when the earlier version shows it
    and the name is blank; the earlier version also shows it on a name that
    is not blank. *)
Theorem cell_against_derived (events : list SimpleInput.InputEvent) :
  exists s touched v,
    React.fireAll fire (map ofInputEvent events) mounted
    = Return (holding s false touched []) /\
    SimpleInput.deliver events SimpleInput.initialState
    = {| SimpleInput.enteredName := JString s;
         SimpleInput.enteredNameTouched := JBool touched |} /\
    SimpleInput.view (SimpleInput.deliver events SimpleInput.initialState)
    = Return v /\
    React.inputValue v
    = React.inputValue (view (React.cells (holding s false touched []))) /\
    React.errorShown v
    = (forallb isTrimmed s &&
       React.errorShown (view (React.cells (holding s false touched [])))).
Proof.
  destruct (cell_follows_derived events (lit "") false)
    as (s & touched & Hcell & Hderived).
  exists s, touched. eexists. unfold SimpleInput.initialState.
  split; [exact Hcell|]. split; [exact Hderived|].
  rewrite Hderived, derived_view. split; [reflexivity|].
  cbn [holding React.cells]. rewrite cell_view. repeat split.
Qed.

End ValidityCellFacts.

(** ** [part_001]: validation on submit only *)

Section OnSubmit.

Import SimpleInputOnSubmit.

Lemma onSubmit_fire (s : jsstring) (valid : bool)
  (effects : list React.Effect) (e : FormEvent) :
  fire (holding s valid effects) e =
  Return
    (match e with
     | Change event => holding (Event.value (Event.target event)) valid effects
     | Submit =>
         if forallb isTrimmed s
         then holding s false (effects ++ [React.PreventDefault])
         else holding (lit "") true
                (effects ++
                 [React.PreventDefault;
                  React.ConsoleLog (lit "Submitting form! Name: " ++ s)])
     end).
Proof.
  destruct e; unfold fire, holding; cbn [React.cells enteredName].
  - reflexivity.
  - unfold submitHandler. handler_steps. rewrite trim_is_empty.
    destruct (forallb isTrimmed s); handler_steps; [reflexivity|].
    rewrite <- app_assoc. reflexivity.
Qed.

Lemma onSubmit_view (s : jsstring) (valid : bool) :
  view {| enteredName := JString s; enteredNameIsValid := JBool valid |} =
  {| React.className :=
       if valid then lit "form-control" else lit "form-control invalid";
     React.inputValue := JString s;
     React.errorShown := negb valid;
     React.submitDisabled := false |}.
Proof. reflexivity. Qed.

Lemma onSubmit_histories (events : list FormEvent) :
  forall s valid effects,
    logsOnlyNonBlankNames effects ->
    exists s' valid' effects',
      React.fireAll fire events (holding s valid effects) =
        Return (holding s' valid' effects') /\
      logsOnlyNonBlankNames effects'.
Proof.
  induction events as [|e events IH]; intros s valid effects Hlogs.
  - cbn. eauto.
  - cbn [React.fireAll]. rewrite onSubmit_fire. cbn [bind].
    destruct e; [apply IH, Hlogs|].
    destruct (forallb isTrimmed s) eqn:Hs; apply IH; auto with logs.
Qed.

Lemma onSubmit_changes (events : list Event.t) :
  forall s valid effects,
    exists s',
      React.fireAll fire (map Change events) (holding s valid effects) =
      Return (holding s' valid effects).
Proof.
  induction events as [|event events IH]; intros s valid effects.
  - cbn. eauto.
  - cbn [map React.fireAll]. rewrite onSubmit_fire. cbn [bind]. apply IH.
Qed.

(** X20: no history of change and submit events makes [part_001] throw: from
    the mounted component every history returns, leaves a string and a
    boolean in the cells, and has logged only submit lines of names that are
    not blank. *)
Theorem onSubmit_histories_safe (events : list FormEvent) :
  exists s valid effects,
    React.fireAll fire events mounted = Return (holding s valid effects) /\
    logsOnlyNonBlankNames effects.
Proof.
  apply (onSubmit_histories events (lit "") true []).
  apply logsOnlyNonBlankNames_nil.
Qed.

(** X21: submit in [part_001], from cells holding a string and a boolean:
    the default action is prevented in both cases. On a blank name nothing is
    logged, the name stays and the next render shows the error with the
    invalid class. On any other name one line with the name is logged, the
    name is cleared, and the next render shows an empty field without
    error. *)
Theorem onSubmit_submit (s : jsstring) (valid : bool)
  (effects : list React.Effect) :
  exists w',
    fire (holding s valid effects) Submit = Return w' /\
    if forallb isTrimmed s then
      w' = holding s false (effects ++ [React.PreventDefault]) /\
      React.errorShown (view (React.cells w')) = true /\
      React.className (view (React.cells w')) = lit "form-control invalid"
    else
      w' = holding (lit "") true
             (effects ++
              [React.PreventDefault;
               React.ConsoleLog (lit "Submitting form! Name: " ++ s)]) /\
      React.inputValue (view (React.cells w')) = JString (lit "") /\
      React.errorShown (view (React.cells w')) = false /\
      React.className (view (React.cells w')) = lit "form-control".
Proof.
  rewrite onSubmit_fire. eexists. split; [reflexivity|].
  destruct (forallb isTrimmed s); repeat split.
Qed.

(** X22: in [part_001] only a submit moves the error. From mount, however
    many change events arrive, no error is shown although the name may be
    blank; and after a submit followed by any change events, the error is
    shown exactly when the name was blank at the submit, whatever was typed
    since. *)
Theorem onSubmit_error_waits_for_submit (s : jsstring) (valid : bool)
  (effects : list React.Effect) (typed : list Event.t) :
  (exists w',
     React.fireAll fire (map Change typed) mounted = Return w' /\
     React.errorShown (view (React.cells w')) = false) /\
  (exists w',
     React.fireAll fire (Submit :: map Change typed) (holding s valid effects)
     = Return w' /\
     React.errorShown (view (React.cells w')) = forallb isTrimmed s).
Proof.
  split.
  - destruct (onSubmit_changes typed (lit "") true []) as (s' & Hs').
    eexists. split; [exact Hs'|]. reflexivity.
  - cbn [React.fireAll]. rewrite onSubmit_fire. cbn [bind].
    destruct (forallb isTrimmed s);
      match goal with
      | |- context [React.fireAll _ _ (holding ?n ?v ?effs)] =>
          destruct (onSubmit_changes typed n v effs) as (s' & Hs')
      end;
      eexists; (split; [exact Hs'|]); reflexivity.
Qed.

End OnSubmit.
